(** * Load-Balancer: server selection and forwarding (main.go)

    A shallow embedding of [NewLoadBalancer], [simpleServer.IsAlive],
    [getNextAvailableServer] and [serveProxy], followed by the properties
    of the selection engine.

    Modelling choices, all read off main.go:
    - Go's [int] is the 64-bit two's-complement integer; [++] and [--]
      wrap ([wrap]); [%] is Go's truncated remainder ([Z.rem]), whose
      sign follows the dividend.
    - A slice index outside [0, len) and a remainder by zero are run-time
      panics ([IndexOutOfRange], [DivideByZero]).
    - The network is an oracle [net]: what a call of the HTTP client, made
      at a given instant for a given address, gives back.  Every call of
      [http.Head] and every forward through a proxy is appended to the
      [World], the log of the traffic so far.  A call of [http.Head] is
      one entry, with the response or error the client hands back (the
      last response, when the client follows redirects); the requests
      the client itself sends while following redirects are not listed.
    - main.go:63 writes [resp.Status >= 400].  In net/http [Status] is the
      status line, a string, which does not compare with 400: as written
      the line does not type-check.  [alive_reply] is the comparison of
      the numeric status code that the line is after; the theorems on the
      selection only use the verdict of a probe, never how it is
      computed.
    - The [for] loop of [getNextAvailableServer] has no bound; it is run
      with fuel, and a run that exhausts its fuel reports the state it is
      still spinning in. *)

From Stdlib Require Import ZArith List String Bool Lia.
Import ListNotations.
Local Open Scope Z_scope.

(** ** Go's [int] *)

Definition int_min : Z := - 2 ^ 63.
Definition int_max : Z := 2 ^ 63 - 1.

Definition wrap (z : Z) : Z := (z + 2 ^ 63) mod 2 ^ 64 - 2 ^ 63.

Definition in_int (z : Z) : Prop := int_min <= z <= int_max.

(** [c++] and [c--] on an [int]. *)
Definition incr (c : Z) : Z := wrap (c + 1).
Definition decr (c : Z) : Z := wrap (c - 1).

(** ** Run-time panics *)

Inductive panic : Type :=
| DivideByZero
| IndexOutOfRange.

(** ** The HTTP client: [http.Head] *)

(** The response of a probe.  main.go compares [resp.Status] with the
    number 400, so the field is an integer here: the numeric status code
    (net/http's [StatusCode]), under the name the source uses. *)
Record Response : Type := { Status : Z }.

(** [resp, err := http.Head(addr)]: either a response (the last one, when
    the client followed redirects), or an error (then [resp] is nil and
    only [err] is set). *)
Inductive HeadReply : Type :=
| HeadOk (resp : Response)
| HeadErr (err : string).

Inductive Event : Type :=
| HEAD (addr : string) (reply : HeadReply)
| FORWARD (addr : string).

Definition World : Type := list Event.

(** ** simpleServer *)

Record ReverseProxy : Type := { target : string }.

Record simpleServer : Type := {
  address : string;
  proxy : ReverseProxy
}.

(** ** The [Server] interface: a value of the interface carries its
    methods. *)

Record Server : Type := {
  Address : string;
  IsAlive : World -> bool * World;
  Serve : World -> World
}.

Record LoadBalancer : Type := {
  port : string;
  roundRobinCount : Z;
  servers : list Server
}.

Definition NewLoadBalancer (port : string) (servers : list Server)
  : LoadBalancer :=
  {| port := port; roundRobinCount := 0; servers := servers |}.

Definition set_roundRobinCount (lb : LoadBalancer) (c : Z) : LoadBalancer :=
  {| port := port lb; roundRobinCount := c; servers := servers lb |}.

(** How a call ends: it returns, it panics, or its loop is still running
    when the fuel is spent.  Each case carries the balancer and the world
    as the call left them. *)
Inductive run (A : Type) : Type :=
| Returned (a : A) (lb : LoadBalancer) (w : World)
| Panicked (p : panic) (lb : LoadBalancer) (w : World)
| Spinning (lb : LoadBalancer) (w : World).

Arguments Returned {A} a lb w.
Arguments Panicked {A} p lb w.
Arguments Spinning {A} lb w.

(** The verdict of [IsAlive] on a reply:
    [if err != nil || resp.Status >= 400 { return false }; return true]. *)
Definition alive_reply (r : HeadReply) : bool :=
  match r with
  | HeadErr _ => false
  | HeadOk resp => if Status resp >=? 400 then false else true
  end.

Section Network.

(** [net t addr]: the reply to the request sent to [addr] when [t]
    requests have been sent before it. *)
Variable net : nat -> string -> HeadReply.

Definition http_Head (addr : string) (w : World) : HeadReply * World :=
  let reply := net (List.length w) addr in
  (reply, w ++ [HEAD addr reply]).

Definition simpleServer_Address (s : simpleServer) : string := address s.

Definition simpleServer_IsAlive (s : simpleServer) (w : World)
  : bool * World :=
  let '(reply, w') := http_Head (address s) w in
  (alive_reply reply, w').

(** [s.proxy.ServeHTTP(rw, r)]: one forwarded request to the proxy's
    target. *)
Definition simpleServer_Serve (s : simpleServer) (w : World) : World :=
  w ++ [FORWARD (target (proxy s))].

Definition as_Server (s : simpleServer) : Server :=
  {| Address := simpleServer_Address s;
     IsAlive := simpleServer_IsAlive s;
     Serve := simpleServer_Serve s |}.

End Network.

(** [lb.servers[lb.roundRobinCount % len(lb.servers)]] *)
Definition current (lb : LoadBalancer) : panic + Server :=
  let n := Z.of_nat (List.length (servers lb)) in
  if n =? 0 then inl DivideByZero
  else
    let i := Z.rem (roundRobinCount lb) n in
    if i <? 0 then inl IndexOutOfRange
    else match nth_error (servers lb) (Z.to_nat i) with
         | Some s => inr s
         | None => inl IndexOutOfRange
         end.

(** [for !server.IsAlive() { lb.roundRobinCount++; server = ... }],
    entered with [server]; [fuel] bounds the number of times the body
    runs. *)
Fixpoint scan (fuel : nat) (server : Server) (lb : LoadBalancer) (w : World)
  : run Server :=
  let '(alive, w1) := IsAlive server w in
  if negb alive then
    match fuel with
    | O => Spinning lb w1
    | S fuel' =>
        let lb1 := set_roundRobinCount lb (incr (roundRobinCount lb)) in
        match current lb1 with
        | inl p => Panicked p lb1 w1
        | inr server' => scan fuel' server' lb1 w1
        end
    end
  else Returned server lb w1.

Definition getNextAvailableServer (fuel : nat) (lb : LoadBalancer) (w : World)
  : run Server :=
  match current lb with
  | inl p => Panicked p lb w
  | inr server =>
      match scan fuel server lb w with
      | Returned server' lb' w' =>
          Returned server'
            (set_roundRobinCount lb' (decr (roundRobinCount lb'))) w'
      | Panicked p lb' w' => Panicked p lb' w'
      | Spinning lb' w' => Spinning lb' w'
      end
  end.

(** [serveProxy]: select, evaluate the argument of [Printf] (a call of
    [IsAlive] on the selected server), then forward.  What [Printf] writes
    to the standard output is not part of the model. *)
Definition serveProxy (fuel : nat) (lb : LoadBalancer) (w : World)
  : run unit :=
  match getNextAvailableServer fuel lb w with
  | Returned targetServer lb' w' =>
      let '(_, w'') := IsAlive targetServer w' in
      Returned tt lb' (Serve targetServer w'')
  | Panicked p lb' w' => Panicked p lb' w'
  | Spinning lb' w' => Spinning lb' w'
  end.

(** ** Construction of backends, and small networks *)

(** [newSimpleServer addr] for an address that [url.Parse] accepts: the
    proxy is bound to the same address.  (On a malformed address the
    process exits before any balancer exists.) *)
Definition newSimpleServer (addr : string) : simpleServer :=
  {| address := addr; proxy := {| target := addr |} |}.

(** A slice of servers, each a [*simpleServer]. *)
Definition pool (net : nat -> string -> HeadReply) (ss : list simpleServer)
  : list Server :=
  map (as_Server net) ss.

Definition ok200 : HeadReply := HeadOk {| Status := 200 |}.
Definition err500 : HeadReply := HeadOk {| Status := 500 |}.
Definition refused : HeadReply := HeadErr "connection refused".

(** Every backend answers 200. *)
Definition net_up : nat -> string -> HeadReply := fun _ _ => ok200.
(** No backend answers. *)
Definition net_down : nat -> string -> HeadReply := fun _ _ => refused.
(** Only the backend at [a] answers 200; the others answer 500. *)
Definition net_only (a : string) : nat -> string -> HeadReply :=
  fun _ b => if String.eqb a b then ok200 else err500.

(** The backends configured in [main]. *)
Definition main_servers : list simpleServer :=
  [newSimpleServer "https://www.example.com";
   newSimpleServer "https://www.bing.com";
   newSimpleServer "https://www.google.com"].

(** [n] calls one after the other, as long as each returns: the servers
    returned, and the balancer and the world after the last call. *)
Fixpoint calls (fuel n : nat) (lb : LoadBalancer) (w : World)
  : option (list Server * LoadBalancer * World) :=
  match n with
  | O => Some ([], lb, w)
  | S n' =>
      match getNextAvailableServer fuel lb w with
      | Returned server lb1 w1 =>
          match calls fuel n' lb1 w1 with
          | Some (rest, lb', w') => Some (server :: rest, lb', w')
          | None => None
          end
      | _ => None
      end
  end.

Definition selected (r : run Server) : option string :=
  match r with
  | Returned s _ _ => Some (Address s)
  | _ => None
  end.

(** ** Reading the traffic log *)

Definition dead_probe (e : Event) : bool :=
  match e with
  | HEAD _ reply => negb (alive_reply reply)
  | FORWARD _ => false
  end.

Definition alive_probe (e : Event) : bool :=
  match e with
  | HEAD _ reply => alive_reply reply
  | FORWARD _ => false
  end.

Definition is_probe (e : Event) : bool :=
  match e with HEAD _ _ => true | FORWARD _ => false end.

Definition is_forward (e : Event) : bool :=
  match e with HEAD _ _ => false | FORWARD _ => true end.

Definition count_probes (w : World) : nat := List.length (filter is_probe w).
Definition count_forwards (w : World) : nat :=
  List.length (filter is_forward w).

(** The world after probing the addresses [addrs] one after the other. *)
Fixpoint probes (net : nat -> string -> HeadReply) (addrs : list string)
  (w : World) : World :=
  match addrs with
  | [] => w
  | a :: rest => probes net rest (snd (http_Head net a w))
  end.

(** The address configured at position [i mod N] of a list of [N]
    backends. *)
Definition addr_at (ss : list simpleServer) (i : Z) : string :=
  match nth_error ss (Z.to_nat (i mod Z.of_nat (List.length ss))) with
  | Some s => address s
  | None => EmptyString
  end.

(** [m] consecutive positions of the circular configured order, from
    position [c]. *)
Fixpoint circular (ss : list simpleServer) (c : Z) (m : nat) : list string :=
  match m with
  | O => []
  | S m' => addr_at ss c :: circular ss (c + 1) m'
  end.

(** ** What a call left behind *)

Definition balancer_of {A : Type} (r : run A) : LoadBalancer :=
  match r with
  | Returned _ lb _ | Panicked _ lb _ | Spinning lb _ => lb
  end.

Definition world_of {A : Type} (r : run A) : World :=
  match r with
  | Returned _ _ w | Panicked _ _ w | Spinning _ w => w
  end.

Definition is_spinning {A : Type} (r : run A) : bool :=
  match r with
  | Spinning _ _ => true
  | _ => false
  end.

Definition has_returned {A : Type} (r : run A) : bool :=
  match r with
  | Returned _ _ _ => true
  | _ => false
  end.

(** The backend configured at position [i mod N] of a list of [N]. *)
Definition server_at (ss : list simpleServer) (i : Z) : option simpleServer :=
  nth_error ss (Z.to_nat (i mod Z.of_nat (List.length ss))).

(** A call of [http.Head] for the address of one of the backends [ss]. *)
Definition probe_of (ss : list simpleServer) (e : Event) : Prop :=
  exists y reply, In y ss /\ e = HEAD (address y) reply.

(** ** The standard output

    Every write of main.go is a call of [fmt.Printf]; the output is kept
    as the list of these calls, each with its format (as written in the
    source) and its arguments. *)

Inductive arg : Type :=
| ArgString (s : string)
| ArgBool (b : bool)
| ArgError (err : string).

Record printf_call : Type := { format : string; args : list arg }.

Definition Stdout : Type := list printf_call.

Definition Printf (fmt : string) (a : list arg) (out : Stdout) : Stdout :=
  out ++ [{| format := fmt; args := a |}].

(** ** Process start: [handleErr] and [newSimpleServer] *)

(** The process goes on, or it has called [os.Exit]. *)
Inductive process (A : Type) : Type :=
| Continue (a : A) (out : Stdout)
| Exit (code : Z) (out : Stdout).

Arguments Continue {A} a out.
Arguments Exit {A} code out.

(** [if err != nil { fmt.Printf("Error: %v\n", err); os.Exit(1) }] *)
Definition handleErr (err : option string) (out : Stdout) : process unit :=
  match err with
  | Some e => Exit 1 (Printf "Error: %v\n" [ArgError e] out)
  | None => Continue tt out
  end.

Module Startup.

Section Parse.

(** [url.Parse]: the parsed URL, or an error. *)
Variable url_Parse : string -> string + string.

(** [serverUrl, err := url.Parse(addr); handleErr(err); return &simpleServer{
    address: addr, proxy: httputil.NewSingleHostReverseProxy(serverUrl)}] *)
Definition newSimpleServer (addr : string) (out : Stdout)
  : process simpleServer :=
  let '(serverUrl, err) :=
    match url_Parse addr with
    | inl u => (u, None)
    | inr e => (EmptyString, Some e)
    end in
  match handleErr err out with
  | Exit code out' => Exit code out'
  | Continue _ out' =>
      Continue {| address := addr; proxy := {| target := serverUrl |} |} out'
  end.

End Parse.

End Startup.

(** ** The request path with its log lines *)

(** What the handlers read of a request: [r.Method] and [r.URL.Path]. *)
Record Request : Type := { Method : string; Path : string }.

(** [serveProxy] with its write to the standard output: the argument of
    [Printf] is the result of [targetServer.IsAlive()], evaluated before
    the line is written and before [Serve] runs. *)
Definition serveProxy_io (fuel : nat) (lb : LoadBalancer) (w : World)
  (out : Stdout) : Stdout * run unit :=
  match getNextAvailableServer fuel lb w with
  | Returned targetServer lb' w' =>
      let '(alive, w'') := IsAlive targetServer w' in
      let out' :=
        Printf "Forwarding the request to address: %q\n" [ArgBool alive] out in
      (out', Returned tt lb' (Serve targetServer w''))
  | Panicked p lb' w' => (out, Panicked p lb' w')
  | Spinning lb' w' => (out, Spinning lb' w')
  end.

(** An [http.Handler], run on a request with the balancer, the traffic
    and the output as they are when the request arrives. *)
Definition Handler : Type :=
  Request -> LoadBalancer -> World -> Stdout -> Stdout * run unit.

(** [handleRedirect := func(rw, req) { lb.serveProxy(rw, req) }] *)
Definition handleRedirect (fuel : nat) : Handler :=
  fun _ lb w out => serveProxy_io fuel lb w out.

(** [loggingMiddleware(next)]: write the line, then [next.ServeHTTP]. *)
Definition loggingMiddleware (next : Handler) : Handler :=
  fun r lb w out =>
    next r lb w
      (Printf "Received request: %s %s\n"
         [ArgString (Method r); ArgString (Path r)] out).

(** ** Arithmetic of [int] *)

Lemma wrap_in_int (z : Z) : in_int z -> wrap z = z.
Proof.
  unfold in_int, int_min, int_max, wrap. intros H.
  rewrite Z.mod_small; lia.
Qed.

Lemma wrap_add_l (a b : Z) : wrap (wrap a + b) = wrap (a + b).
Proof.
  unfold wrap.
  replace ((a + 2 ^ 63) mod 2 ^ 64 - 2 ^ 63 + b + 2 ^ 63)
    with ((a + 2 ^ 63) mod 2 ^ 64 + b) by lia.
  rewrite Zplus_mod_idemp_l. f_equal. f_equal. lia.
Qed.

(** ** Indexing the slice *)

Lemma current_in (lb : LoadBalancer) (s : Server) :
  current lb = inr s -> In s (servers lb).
Proof.
  unfold current.
  destruct (Z.of_nat (List.length (servers lb)) =? 0); [discriminate|].
  destruct (Z.rem _ _ <? 0); [discriminate|].
  destruct (nth_error _ _) eqn:E; [|discriminate].
  intros [= <-]. eapply nth_error_In; eauto.
Qed.

Lemma current_pool net ss (lb : LoadBalancer) (s : Server) :
  servers lb = pool net ss ->
  current lb = inr s ->
  exists x, In x ss /\ s = as_Server net x.
Proof.
  intros Hs Hc. apply current_in in Hc. rewrite Hs in Hc.
  unfold pool in Hc. apply in_map_iff in Hc.
  destruct Hc as (x & <- & Hx). eauto.
Qed.

(** With a cursor that is not negative, the index is the cursor modulo
    the length, and it is in range. *)
Lemma current_nonneg net ss (lb : LoadBalancer) :
  servers lb = pool net ss ->
  ss <> [] ->
  0 <= roundRobinCount lb ->
  exists x,
    nth_error ss
      (Z.to_nat (roundRobinCount lb mod Z.of_nat (List.length ss))) = Some x /\
    current lb = inr (as_Server net x).
Proof.
  intros Hs Hne Hc.
  assert (HN : 0 < Z.of_nat (List.length ss))
    by (destruct ss; [congruence | cbn [List.length]; lia]).
  pose proof (Z.mod_pos_bound (roundRobinCount lb) _ HN) as Hb.
  destruct (nth_error ss
              (Z.to_nat (roundRobinCount lb mod Z.of_nat (List.length ss))))
    as [x|] eqn:E.
  2:{ apply nth_error_None in E. lia. }
  exists x. split; [reflexivity|].
  unfold current. rewrite Hs. unfold pool. rewrite length_map.
  destruct (Z.eqb_spec (Z.of_nat (List.length ss)) 0); [lia|].
  rewrite Z.rem_mod_nonneg by lia.
  destruct (Z.ltb_spec (roundRobinCount lb mod Z.of_nat (List.length ss)) 0);
    [lia|].
  rewrite nth_error_map, E. reflexivity.
Qed.

(** With a cursor whose remainder is negative, the index expression
    panics before any probe is sent. *)
Lemma current_negative (lb : LoadBalancer) :
  servers lb <> [] ->
  Z.rem (roundRobinCount lb) (Z.of_nat (List.length (servers lb))) < 0 ->
  current lb = inl IndexOutOfRange.
Proof.
  intros Hne H. unfold current.
  destruct (Z.eqb_spec (Z.of_nat (List.length (servers lb))) 0) as [E|E].
  - destruct (servers lb); [congruence | cbn [List.length] in E; lia].
  - destruct (Z.ltb_spec
                (Z.rem (roundRobinCount lb)
                   (Z.of_nat (List.length (servers lb)))) 0); [reflexivity|lia].
Qed.

(** A cursor of -1 over two or more servers is such a cursor. *)
Lemma current_minus_one (lb : LoadBalancer) :
  (2 <= List.length (servers lb))%nat ->
  roundRobinCount lb = -1 ->
  current lb = inl IndexOutOfRange.
Proof.
  intros HN Hc. apply current_negative.
  - destruct (servers lb); [cbn in HN; lia | congruence].
  - rewrite Hc. change (-1) with (- (1)).
    rewrite Z.rem_opp_l, Z.rem_small by lia. lia.
Qed.

Lemma wrap_iter_incr (k : nat) (c b : Z) :
  wrap (Nat.iter k incr c + b) = wrap (c + Z.of_nat k + b).
Proof.
  revert b. induction k as [|k IH]; intros b.
  - cbn. f_equal. lia.
  - change (Nat.iter (S k) incr c) with (wrap (Nat.iter k incr c + 1)).
    rewrite wrap_add_l.
    replace (Nat.iter k incr c + 1 + b) with (Nat.iter k incr c + (1 + b))
      by lia.
    rewrite IH. f_equal. lia.
Qed.

(** ** The loop over [*simpleServer] backends *)

Section Scan.

Variable net : nat -> string -> HeadReply.
Variable ss : list simpleServer.

(** One turn of the loop, spelled out for a [*simpleServer]. *)
Lemma scan_simple (fuel : nat) (x : simpleServer) (lb : LoadBalancer)
  (w : World) :
  scan fuel (as_Server net x) lb w =
  let reply := net (List.length w) (address x) in
  let w1 := w ++ [HEAD (address x) reply] in
  if alive_reply reply then Returned (as_Server net x) lb w1
  else
    match fuel with
    | O => Spinning lb w1
    | S fuel' =>
        let lb1 := set_roundRobinCount lb (incr (roundRobinCount lb)) in
        match current lb1 with
        | inl p => Panicked p lb1 w1
        | inr server' => scan fuel' server' lb1 w1
        end
    end.
Proof.
  destruct fuel; cbn; destruct (alive_reply _); reflexivity.
Qed.

(** Whenever the loop exits, the traffic it caused is a run of dead
    probes followed by one alive probe, of the server it exits with;
    the cursor was incremented once per dead probe and nothing else of
    the balancer changed. *)
Lemma scan_returned (fuel : nat) :
  forall (x : simpleServer) (lb : LoadBalancer) (w : World)
         (r : Server) (lb' : LoadBalancer) (w' : World),
    servers lb = pool net ss ->
    scan fuel (as_Server net x) lb w = Returned r lb' w' ->
    exists (deads : list Event) (y : simpleServer) (t : nat),
      w' = w ++ deads ++ [HEAD (address y) (net t (address y))] /\
      forallb dead_probe deads = true /\
      alive_reply (net t (address y)) = true /\
      r = as_Server net y /\
      (y = x \/ In y ss) /\
      roundRobinCount lb' =
        Nat.iter (List.length deads) incr (roundRobinCount lb) /\
      servers lb' = servers lb /\
      port lb' = port lb.
Proof.
  induction fuel as [|fuel IH]; intros x lb w r lb' w' Hs H;
    rewrite scan_simple in H; cbv zeta in H;
    destruct (alive_reply (net (List.length w) (address x))) eqn:A.
  1,3: injection H as <- <- <-;
       exists [], x, (List.length w); cbn; auto 10.
  - discriminate.
  - destruct (current _) as [p|server'] eqn:C; [discriminate|].
    destruct (current_pool net ss _ _ (Hs : servers (set_roundRobinCount
                lb (incr (roundRobinCount lb))) = _) C) as (y & Hy & ->).
    apply IH in H; [|exact Hs].
    destruct H as (deads & z & t & -> & Hd & Ha & -> & Hz & Hc & Hsv & Hp).
    exists (HEAD (address x) (net (List.length w) (address x)) :: deads),
      z, t.
    repeat split; auto.
    + rewrite <- app_assoc. reflexivity.
    + cbn. rewrite A. exact Hd.
    + destruct Hz as [->|Hz]; auto.
    + rewrite Hc. cbn [List.length roundRobinCount set_roundRobinCount].
      rewrite Nat.iter_succ_r. reflexivity.
Qed.

(** While every probe fails and the cursor stays within [int], the loop
    has, after [n] turns, probed [n + 1] backends in circular order and
    is still running. *)
Lemma scan_all_dead :
  (forall t a, alive_reply (net t a) = false) ->
  ss <> [] ->
  forall (n : nat) (x : simpleServer) (lb : LoadBalancer) (w : World),
    servers lb = pool net ss ->
    0 <= roundRobinCount lb ->
    roundRobinCount lb + Z.of_nat n <= int_max ->
    nth_error ss
      (Z.to_nat (roundRobinCount lb mod Z.of_nat (List.length ss))) =
      Some x ->
    scan n (as_Server net x) lb w =
    Spinning (set_roundRobinCount lb (roundRobinCount lb + Z.of_nat n))
      (probes net (circular ss (roundRobinCount lb) (S n)) w).
Proof.
  intros Hdead Hne.
  induction n as [|n IH]; intros x lb w Hs H0 H1 Hx;
    rewrite scan_simple; cbv zeta; rewrite Hdead.
  - cbn. unfold addr_at. rewrite Hx. unfold http_Head. cbn.
    rewrite Z.add_0_r. destruct lb; reflexivity.
  - assert (E : incr (roundRobinCount lb) = roundRobinCount lb + 1).
    { unfold incr. apply wrap_in_int.
      unfold in_int, int_min, int_max in *. lia. }
    rewrite E.
    destruct (current_nonneg net ss
                (set_roundRobinCount lb (roundRobinCount lb + 1)))
      as (y & Hy & C); auto.
    { cbn. lia. }
    cbn [roundRobinCount set_roundRobinCount] in Hy.
    rewrite C. rewrite (IH y); auto.
    + cbn [roundRobinCount set_roundRobinCount servers port].
      f_equal.
      * unfold set_roundRobinCount. cbn. f_equal. lia.
      * cbn [circular probes].
        assert (Ex : addr_at ss (roundRobinCount lb) = address x)
          by (unfold addr_at; rewrite Hx; reflexivity).
        rewrite Ex. reflexivity.
    + cbn. lia.
    + cbn [roundRobinCount set_roundRobinCount]. lia.
Qed.

End Scan.

(** ** Reading [circular] and [probes] *)

Lemma circular_nth (ss : list simpleServer) (m : nat) :
  forall (c : Z) (i : nat),
    (i < m)%nat ->
    nth_error (circular ss c m) i = Some (addr_at ss (c + Z.of_nat i)).
Proof.
  induction m as [|m IH]; intros c i Hi; [lia|].
  destruct i as [|i]; cbn [circular nth_error].
  - rewrite Z.add_0_r. reflexivity.
  - rewrite IH by lia. do 2 f_equal. lia.
Qed.

Lemma probes_spec net (addrs : list string) :
  forall w : World,
  exists evs : list Event,
    probes net addrs w = w ++ evs /\
    forallb is_probe evs = true /\
    List.length evs = List.length addrs.
Proof.
  induction addrs as [|a rest IH]; intros w; cbn [probes].
  - exists []. rewrite app_nil_r. auto.
  - destruct (IH (snd (http_Head net a w))) as (evs & -> & Hp & Hl).
    exists (HEAD a (net (List.length w) a) :: evs).
    cbn. rewrite <- app_assoc. auto.
Qed.

(** ** Properties *)

(** C10. [NewLoadBalancer] is total and validates nothing: whatever the
    port and the slice of servers, the empty slice included, the balancer
    it returns holds that port and that slice unchanged and a cursor of 0.
    That the slice is not empty is not checked at construction: on the
    empty slice the first selection panics with a division by zero. *)
Theorem NewLoadBalancer_stores_unchecked (p : string) (srv : list Server) :
  port (NewLoadBalancer p srv) = p /\
  roundRobinCount (NewLoadBalancer p srv) = 0 /\
  servers (NewLoadBalancer p srv) = srv /\
  servers (NewLoadBalancer p []) = [] /\
  forall (fuel : nat) (w : World),
    getNextAvailableServer fuel (NewLoadBalancer p []) w =
    Panicked DivideByZero (NewLoadBalancer p []) w.
Proof.
  repeat split.
Qed.

(** The verdict of [IsAlive] with the numeric status code compared: one
    call of [http.Head] for the server's address, and true exactly when
    the call gave a response whose status code is below 400.  A response
    with status 400 or more gives false, and so does any error of the
    call; the result is always a boolean, there is no error for the
    caller to see. *)
Theorem IsAlive_true_iff (net : nat -> string -> HeadReply)
  (s : simpleServer) (w : World) :
  let reply := net (List.length w) (address s) in
  IsAlive (as_Server net s) w = simpleServer_IsAlive net s w /\
  snd (simpleServer_IsAlive net s w) = w ++ [HEAD (address s) reply] /\
  (fst (simpleServer_IsAlive net s w) = true <->
   exists resp, reply = HeadOk resp /\ Status resp < 400) /\
  (forall resp, reply = HeadOk resp -> 400 <= Status resp ->
                fst (simpleServer_IsAlive net s w) = false) /\
  (forall err, reply = HeadErr err ->
               fst (simpleServer_IsAlive net s w) = false).
Proof.
  cbv zeta. unfold simpleServer_IsAlive, http_Head. cbn [fst snd].
  repeat split.
  - destruct (net _ _) as [resp|err]; cbn; [|discriminate].
    destruct (Z.geb_spec (Status resp) 400); [discriminate|].
    intros _. exists resp. split; [reflexivity|lia].
  - intros (resp & -> & H). cbn.
    destruct (Z.geb_spec (Status resp) 400); [lia|reflexivity].
  - intros resp -> H. cbn.
    destruct (Z.geb_spec (Status resp) 400); [reflexivity|lia].
  - intros err ->. reflexivity.
Qed.

(** C7. On a fresh balancer over [down, up] -- the probe of the first
    backend fails, the probe of the second succeeds -- one call returns
    the second backend: the dead one is probed once and skipped. *)
Theorem down_up_returns_up (net : nat -> string -> HeadReply)
  (down up : simpleServer) (p : string) (fuel : nat) (w : World) :
  alive_reply (net (List.length w) (address down)) = false ->
  alive_reply (net (S (List.length w)) (address up)) = true ->
  getNextAvailableServer (S fuel)
    (NewLoadBalancer p (pool net [down; up])) w =
  Returned (as_Server net up)
    (NewLoadBalancer p (pool net [down; up]))
    (w ++ [HEAD (address down) (net (List.length w) (address down));
           HEAD (address up) (net (S (List.length w)) (address up))]).
Proof.
  intros Hd Hu.
  unfold getNextAvailableServer.
  change (current (NewLoadBalancer p (pool net [down; up])))
    with (@inr panic Server (as_Server net down)).
  cbv beta iota. rewrite scan_simple. cbv zeta. rewrite Hd.
  change (current _) with (@inr panic Server (as_Server net up)).
  cbv beta iota. rewrite scan_simple. cbv zeta.
  rewrite length_app. cbn [List.length]. rewrite Nat.add_1_r.
  rewrite Hu. rewrite <- app_assoc. reflexivity.
Qed.

Lemma down_up_returns_up_witness :
  selected
    (getNextAvailableServer 1
       (NewLoadBalancer "8000"
          (pool (net_only "up")
             [newSimpleServer "down"; newSimpleServer "up"])) []) =
  Some "up"%string.
Proof.
  rewrite (down_up_returns_up (net_only "up") (newSimpleServer "down")
             (newSimpleServer "up") "8000" 0 []);
    reflexivity.
Defined.

(** Whenever a call returns: the traffic it caused is [k] dead probes and
    then one alive probe, of the backend it returns; the cursor ends at
    its previous value plus [k] minus 1, in [int] arithmetic. *)
Lemma getNextAvailableServer_returned (net : nat -> string -> HeadReply)
  (ss : list simpleServer) (fuel : nat) (lb : LoadBalancer) (w : World)
  (r : Server) (lb' : LoadBalancer) (w' : World) :
  servers lb = pool net ss ->
  getNextAvailableServer fuel lb w = Returned r lb' w' ->
  exists (deads : list Event) (y : simpleServer) (t : nat),
    w' = w ++ deads ++ [HEAD (address y) (net t (address y))] /\
    forallb dead_probe deads = true /\
    alive_reply (net t (address y)) = true /\
    r = as_Server net y /\
    In y ss /\
    roundRobinCount lb' =
      wrap (roundRobinCount lb + Z.of_nat (List.length deads) - 1) /\
    servers lb' = servers lb /\
    port lb' = port lb.
Proof.
  intros Hs H. unfold getNextAvailableServer in H.
  destruct (current lb) as [p|server] eqn:C; [discriminate|].
  destruct (current_pool net ss lb server Hs C) as (x & Hx & ->).
  destruct (scan fuel (as_Server net x) lb w) as [r0 lb0 w0| |] eqn:S;
    try discriminate.
  injection H as <- <- <-.
  apply (scan_returned net ss) in S; [|exact Hs].
  destruct S as (deads & y & t & -> & Hd & Ha & -> & Hy & Hc & Hsv & Hp).
  exists deads, y, t.
  cbn [roundRobinCount set_roundRobinCount servers port].
  repeat split; auto.
  - destruct Hy as [->|Hy]; auto.
  - rewrite Hc. unfold decr.
    replace (Nat.iter (List.length deads) incr (roundRobinCount lb) - 1)
      with (Nat.iter (List.length deads) incr (roundRobinCount lb) + -1)
      by lia.
    rewrite wrap_iter_incr. f_equal.
Qed.

(** C6, as amended.  When every probe fails, a call never returns,
    however long it is left to run, and the code has no bound or breaker
    of its own.  Started with a cursor that is not negative, its loop has
    after [n] turns advanced the cursor by [n] and probed [n + 1]
    backends in circular configured order, and is still running, for
    every [n] that keeps the cursor within [int]. *)
Theorem all_down_never_returns (net : nat -> string -> HeadReply)
  (ss : list simpleServer) (lb : LoadBalancer) (w : World) :
  servers lb = pool net ss ->
  ss <> [] ->
  (forall t a, alive_reply (net t a) = false) ->
  (forall fuel r lb' w',
      getNextAvailableServer fuel lb w <> Returned r lb' w') /\
  (0 <= roundRobinCount lb ->
   forall n : nat,
     roundRobinCount lb + Z.of_nat n <= int_max ->
     getNextAvailableServer n lb w =
     Spinning (set_roundRobinCount lb (roundRobinCount lb + Z.of_nat n))
       (probes net (circular ss (roundRobinCount lb) (S n)) w)).
Proof.
  intros Hs Hne Hdead. split.
  - intros fuel r lb' w' H.
    destruct (getNextAvailableServer_returned net ss fuel lb w r lb' w' Hs H)
      as (deads & y & t & _ & _ & Ha & _).
    rewrite Hdead in Ha. discriminate.
  - intros H0 n Hn. unfold getNextAvailableServer.
    destruct (current_nonneg net ss lb Hs Hne H0) as (x & Hx & C).
    rewrite C.
    rewrite (scan_all_dead net ss Hdead Hne n x lb w Hs H0 Hn Hx).
    reflexivity.
Qed.

Lemma all_down_never_returns_witness :
  let ss := [newSimpleServer "a"; newSimpleServer "b"] in
  let lb := NewLoadBalancer "8000" (pool net_down ss) in
  (forall fuel r lb' w',
      getNextAvailableServer fuel lb [] <> Returned r lb' w') /\
  (0 <= roundRobinCount lb ->
   forall n : nat,
     roundRobinCount lb + Z.of_nat n <= int_max ->
     getNextAvailableServer n lb [] =
     Spinning (set_roundRobinCount lb (roundRobinCount lb + Z.of_nat n))
       (probes net_down (circular ss (roundRobinCount lb) (S n)) [])).
Proof.
  exact (all_down_never_returns net_down
           [newSimpleServer "a"; newSimpleServer "b"]
           (NewLoadBalancer "8000"
              (pool net_down [newSimpleServer "a"; newSimpleServer "b"]))
           [] eq_refl ltac:(discriminate) (fun _ _ => eq_refl)).
Defined.

(** C8. When the first candidate is alive, [serveProxy] sends two probes
    and one forwarded request: the probe of the selection, a second probe
    as the argument of the log line, and the forward.  The claim of one
    probe per inbound request does not hold. *)
Theorem serveProxy_probes_twice (net : nat -> string -> HeadReply)
  (lb : LoadBalancer) (x : simpleServer) (fuel : nat) (w : World) :
  current lb = inr (as_Server net x) ->
  alive_reply (net (List.length w) (address x)) = true ->
  exists (lb' : LoadBalancer) (w' : World),
    serveProxy fuel lb w = Returned tt lb' w' /\
    w' = w ++ [HEAD (address x) (net (List.length w) (address x));
               HEAD (address x) (net (S (List.length w)) (address x));
               FORWARD (target (proxy x))] /\
    count_probes w' = (count_probes w + 2)%nat /\
    count_forwards w' = (count_forwards w + 1)%nat.
Proof.
  intros C A. unfold serveProxy, getNextAvailableServer.
  rewrite C, scan_simple. cbv zeta. rewrite A.
  cbn [IsAlive as_Server Serve simpleServer_IsAlive simpleServer_Serve
         http_Head].
  rewrite length_app. cbn [List.length]. rewrite Nat.add_1_r.
  eexists _, _. split; [reflexivity|].
  unfold simpleServer_Serve.
  rewrite <- !app_assoc. cbn [app]. split; [reflexivity|].
  unfold count_probes, count_forwards.
  rewrite !filter_app, !length_app. cbn. split; reflexivity.
Qed.

Lemma serveProxy_probes_twice_witness :
  exists (lb' : LoadBalancer) (w' : World),
    serveProxy 0
      (NewLoadBalancer "8000" (pool net_up [newSimpleServer "a"])) [] =
    Returned tt lb' w' /\
    w' = [] ++ [HEAD "a" ok200; HEAD "a" ok200; FORWARD "a"] /\
    count_probes w' = (count_probes [] + 2)%nat /\
    count_forwards w' = (count_forwards [] + 1)%nat.
Proof.
  exact (serveProxy_probes_twice net_up
           (NewLoadBalancer "8000" (pool net_up [newSimpleServer "a"]))
           (newSimpleServer "a") 0 [] eq_refl eq_refl).
Defined.

(** C1. With two or more backends, all alive, the first call on a fresh
    balancer returns the first backend and leaves the cursor at -1; the
    second call then panics on the index -1 instead of returning the
    second backend. *)
Theorem all_alive_second_call_panics (net : nat -> string -> HeadReply)
  (x1 x2 : simpleServer) (rest : list simpleServer) (p : string)
  (fuel : nat) (w : World) :
  (forall t a, alive_reply (net t a) = true) ->
  exists (lb1 : LoadBalancer) (w1 : World),
    getNextAvailableServer fuel
      (NewLoadBalancer p (pool net (x1 :: x2 :: rest))) w =
    Returned (as_Server net x1) lb1 w1 /\
    roundRobinCount lb1 = -1 /\
    getNextAvailableServer fuel lb1 w1 = Panicked IndexOutOfRange lb1 w1.
Proof.
  intros Hup. unfold getNextAvailableServer at 1.
  change (current (NewLoadBalancer p (pool net (x1 :: x2 :: rest))))
    with (@inr panic Server (as_Server net x1)).
  cbv beta iota. rewrite scan_simple. cbv zeta. rewrite Hup.
  eexists _, _. split; [reflexivity|]. split; [reflexivity|].
  unfold getNextAvailableServer. rewrite current_minus_one.
  - reflexivity.
  - cbn. lia.
  - reflexivity.
Qed.

Lemma all_alive_second_call_panics_witness :
  exists (lb1 : LoadBalancer) (w1 : World),
    getNextAvailableServer 2
      (NewLoadBalancer "8000"
         (pool net_up [newSimpleServer "a"; newSimpleServer "b"])) [] =
    Returned (as_Server net_up (newSimpleServer "a")) lb1 w1 /\
    roundRobinCount lb1 = -1 /\
    getNextAvailableServer 2 lb1 w1 = Panicked IndexOutOfRange lb1 w1.
Proof.
  exact (all_alive_second_call_panics net_up (newSimpleServer "a")
           (newSimpleServer "b") [] "8000" 2 [] (fun _ _ => eq_refl)).
Defined.

(** C2. A call whose first candidate is alive leaves the cursor one below
    where it found it: the cursor is not monotonically non-decreasing. *)
Theorem cursor_goes_down (net : nat -> string -> HeadReply)
  (lb : LoadBalancer) (x : simpleServer) (fuel : nat) (w : World) :
  current lb = inr (as_Server net x) ->
  int_min < roundRobinCount lb <= int_max ->
  alive_reply (net (List.length w) (address x)) = true ->
  exists (r : Server) (lb' : LoadBalancer) (w' : World),
    getNextAvailableServer fuel lb w = Returned r lb' w' /\
    roundRobinCount lb' = roundRobinCount lb - 1 /\
    roundRobinCount lb' < roundRobinCount lb.
Proof.
  intros C R A. unfold getNextAvailableServer.
  rewrite C, scan_simple. cbv zeta. rewrite A.
  eexists _, _, _. split; [reflexivity|].
  cbn [roundRobinCount set_roundRobinCount]. unfold decr.
  rewrite wrap_in_int; [lia|].
  unfold in_int, int_min, int_max in *. lia.
Qed.

Lemma cursor_goes_down_witness :
  exists (r : Server) (lb' : LoadBalancer) (w' : World),
    getNextAvailableServer 0
      (NewLoadBalancer "8000" (pool net_up [newSimpleServer "a"])) [] =
    Returned r lb' w' /\
    roundRobinCount lb' = 0 - 1 /\
    roundRobinCount lb' < 0.
Proof.
  apply (cursor_goes_down net_up
           (NewLoadBalancer "8000" (pool net_up [newSimpleServer "a"]))
           (newSimpleServer "a") 0 []).
  - reflexivity.
  - unfold int_min, int_max. cbn [roundRobinCount NewLoadBalancer]. lia.
  - reflexivity.
Defined.

(** C3. With the three backends of [main], all alive, the first call
    returns the first backend and leaves the cursor at -1, a state
    reached by a prior call; from it every call panics on the index -1
    before any probe is sent, instead of returning an alive backend. *)
Theorem main_second_call_panics :
  exists (lb1 : LoadBalancer) (w1 : World),
    getNextAvailableServer 0
      (NewLoadBalancer "8000" (pool net_up main_servers)) [] =
    Returned (as_Server net_up (newSimpleServer "https://www.example.com"))
      lb1 w1 /\
    roundRobinCount lb1 = -1 /\
    servers lb1 = pool net_up main_servers /\
    forall fuel : nat,
      getNextAvailableServer fuel lb1 w1 = Panicked IndexOutOfRange lb1 w1.
Proof.
  eexists _, _. split; [reflexivity|].
  split; [reflexivity|]. split; [reflexivity|].
  intros fuel. reflexivity.
Qed.

(** C4. With [up, down] -- only the first of two backends alive -- the
    first call on a fresh balancer returns the alive backend and leaves
    the cursor at -1; every later call panics on the index -1 instead of
    returning that backend again. *)
Theorem only_first_alive_second_call_panics :
  exists (lb1 : LoadBalancer) (w1 : World),
    getNextAvailableServer 0
      (NewLoadBalancer "8000"
         (pool (net_only "up")
            [newSimpleServer "up"; newSimpleServer "down"])) [] =
    Returned (as_Server (net_only "up") (newSimpleServer "up")) lb1 w1 /\
    roundRobinCount lb1 = -1 /\
    forall fuel : nat,
      getNextAvailableServer fuel lb1 w1 = Panicked IndexOutOfRange lb1 w1.
Proof.
  eexists _, _. split; [reflexivity|].
  split; [reflexivity|].
  intros fuel. reflexivity.
Qed.

(** ** Where the selection does work *)

Section Nonnegative.

Variable net : nat -> string -> HeadReply.
Variable ss : list simpleServer.

(** If the backend [d] positions ahead of the cursor answers every
    probe, the loop exits within [d] turns. *)
Lemma scan_reaches_alive (y : simpleServer) :
  (forall t, alive_reply (net t (address y)) = true) ->
  ss <> [] ->
  forall (d fuel : nat) (x : simpleServer) (lb : LoadBalancer) (w : World),
    servers lb = pool net ss ->
    0 <= roundRobinCount lb ->
    roundRobinCount lb + Z.of_nat d <= int_max ->
    (d <= fuel)%nat ->
    nth_error ss
      (Z.to_nat (roundRobinCount lb mod Z.of_nat (List.length ss))) =
      Some x ->
    nth_error ss
      (Z.to_nat ((roundRobinCount lb + Z.of_nat d)
                   mod Z.of_nat (List.length ss))) = Some y ->
    exists r lb' w', scan fuel (as_Server net x) lb w = Returned r lb' w'.
Proof.
  intros Hy Hne.
  induction d as [|d IH]; intros fuel x lb w Hs H0 H1 Hf Hx Hd;
    rewrite scan_simple; cbv zeta.
  - rewrite Z.add_0_r, Hx in Hd. injection Hd as ->.
    rewrite Hy. eauto.
  - destruct (alive_reply (net (List.length w) (address x))); [eauto|].
    destruct fuel as [|fuel]; [lia|].
    assert (E : incr (roundRobinCount lb) = roundRobinCount lb + 1).
    { unfold incr. apply wrap_in_int.
      unfold in_int, int_min, int_max in *. lia. }
    rewrite E.
    destruct (current_nonneg net ss
                (set_roundRobinCount lb (roundRobinCount lb + 1)))
      as (x' & Hx' & C); auto.
    { cbn. lia. }
    cbn [roundRobinCount set_roundRobinCount] in Hx'.
    rewrite C. apply IH; auto.
    + cbn. lia.
    + cbn [roundRobinCount set_roundRobinCount]. lia.
    + lia.
    + cbn [roundRobinCount set_roundRobinCount].
      replace (roundRobinCount lb + 1 + Z.of_nat d)
        with (roundRobinCount lb + Z.of_nat (S d)) by lia.
      exact Hd.
Qed.

(** X2. From a cursor that is not negative (and at least a full round
    below the largest [int]), with one backend that answers every probe,
    a call with fuel for one round returns, and what it returns is a
    configured backend whose probe, the last request of the call,
    succeeded. *)
Lemma getNextAvailableServer_returns_alive (y : simpleServer)
  (fuel : nat) (lb : LoadBalancer) (w : World) :
  servers lb = pool net ss ->
  In y ss ->
  (forall t, alive_reply (net t (address y)) = true) ->
  0 <= roundRobinCount lb ->
  roundRobinCount lb + Z.of_nat (List.length ss) <= int_max ->
  (List.length ss <= fuel)%nat ->
  exists (x : simpleServer) (lb' : LoadBalancer) (deads : list Event)
         (t : nat),
    getNextAvailableServer fuel lb w =
      Returned (as_Server net x) lb'
        (w ++ deads ++ [HEAD (address x) (net t (address x))]) /\
    In x ss /\
    alive_reply (net t (address x)) = true /\
    forallb dead_probe deads = true.
Proof.
  intros Hs Hin Hy H0 H1 Hf.
  assert (Hne : ss <> []) by (destruct ss; [destruct Hin | congruence]).
  destruct (In_nth_error _ _ Hin) as (p & Hp).
  assert (HpN : (p < List.length ss)%nat)
    by (apply nth_error_Some; congruence).
  set (N := Z.of_nat (List.length ss)) in *.
  assert (HN : 0 < N) by (unfold N; lia).
  set (d := Z.to_nat ((Z.of_nat p - roundRobinCount lb) mod N)).
  pose proof (Z.mod_pos_bound (Z.of_nat p - roundRobinCount lb) N HN) as Hb.
  destruct (current_nonneg net ss lb Hs Hne H0) as (x0 & Hx0 & C).
  destruct (scan_reaches_alive y Hy Hne d fuel x0 lb w Hs H0)
    as (r & lb' & w' & S); auto.
  - unfold d. lia.
  - unfold d. lia.
  - unfold d. rewrite Z2Nat.id by lia. fold N.
    rewrite Z.add_mod_idemp_r by lia.
    replace (roundRobinCount lb + (Z.of_nat p - roundRobinCount lb))
      with (Z.of_nat p) by lia.
    rewrite Z.mod_small by (unfold N; lia).
    rewrite Nat2Z.id. exact Hp.
  - assert (G : getNextAvailableServer fuel lb w =
                Returned r
                  (set_roundRobinCount lb' (decr (roundRobinCount lb'))) w').
    { unfold getNextAvailableServer. rewrite C, S. reflexivity. }
    destruct (getNextAvailableServer_returned net ss fuel lb w _ _ _ Hs G)
      as (deads & x & t & -> & Hd & Ha & -> & Hx & _).
    exists x, (set_roundRobinCount lb' (decr (roundRobinCount lb'))),
      deads, t.
    auto.
Qed.

(** With a single backend the index is 0 whatever the cursor: a call
    returns that backend whenever its probe succeeds. *)
Lemma single_backend_returns (x : simpleServer) (lb : LoadBalancer)
  (fuel : nat) (w : World) :
  servers lb = pool net [x] ->
  alive_reply (net (List.length w) (address x)) = true ->
  getNextAvailableServer fuel lb w =
  Returned (as_Server net x)
    (set_roundRobinCount lb (decr (roundRobinCount lb)))
    (w ++ [HEAD (address x) (net (List.length w) (address x))]).
Proof.
  intros Hs A. unfold getNextAvailableServer, current. rewrite Hs.
  cbn [pool map List.length Z.of_nat Pos.of_succ_nat Z.eqb].
  rewrite Z.rem_1_r. cbn [Z.ltb Z.compare Z.to_nat nth_error].
  rewrite scan_simple. cbv zeta. rewrite A. reflexivity.
Qed.

End Nonnegative.

Section OnlyOneAlive.

Variable net : nat -> string -> HeadReply.
Variable ss : list simpleServer.
Variable p : nat.
Variable y : simpleServer.

Hypothesis at_p : nth_error ss p = Some y.
Hypothesis alive_p : forall t, alive_reply (net t (address y)) = true.
Hypothesis dead_others :
  forall t i x, nth_error ss i = Some x -> i <> p ->
                alive_reply (net t (address x)) = false.
Hypothesis len_int : Z.of_nat (List.length ss) <= int_max.

Lemma scan_to_only_alive :
  forall (d fuel : nat) (x : simpleServer) (lb : LoadBalancer) (w : World),
    servers lb = pool net ss ->
    0 <= roundRobinCount lb ->
    roundRobinCount lb + Z.of_nat d = Z.of_nat p ->
    (d <= fuel)%nat ->
    nth_error ss (Z.to_nat (roundRobinCount lb)) = Some x ->
    exists lb' w',
      scan fuel (as_Server net x) lb w = Returned (as_Server net y) lb' w' /\
      roundRobinCount lb' = Z.of_nat p /\
      servers lb' = servers lb.
Proof.
  assert (HpN : (p < List.length ss)%nat)
    by (apply nth_error_Some; congruence).
  assert (Hne : ss <> []) by (destruct ss; [cbn in HpN; lia | congruence]).
  induction d as [|d IH]; intros fuel x lb w Hs H0 Hd Hf Hx;
    rewrite scan_simple; cbv zeta.
  - replace (Z.to_nat (roundRobinCount lb)) with p in Hx by lia.
    rewrite at_p in Hx. injection Hx as <-.
    rewrite alive_p. eexists lb, _. repeat split. lia.
  - rewrite (dead_others _ _ _ Hx) by lia.
    destruct fuel as [|fuel]; [lia|].
    assert (E : incr (roundRobinCount lb) = roundRobinCount lb + 1).
    { unfold incr. apply wrap_in_int.
      unfold in_int, int_min, int_max in *. lia. }
    rewrite E.
    destruct (current_nonneg net ss
                (set_roundRobinCount lb (roundRobinCount lb + 1)))
      as (x' & Hx' & C); auto.
    { cbn. lia. }
    cbn [roundRobinCount set_roundRobinCount] in Hx'.
    rewrite Z.mod_small in Hx' by lia.
    rewrite C.
    destruct (IH fuel x' (set_roundRobinCount lb (roundRobinCount lb + 1))
                (w ++ [HEAD (address x)
                         (net (List.length w) (address x))]))
      as (lb' & w' & S & Hc & Hsv); auto.
    + cbn. lia.
    + cbn [roundRobinCount set_roundRobinCount]. lia.
    + lia.
    + exists lb', w'. auto.
Qed.

(** When the only alive backend is at position [p] and the cursor is
    between 0 and [p], a call returns that backend and leaves the cursor
    at [p - 1]. *)
Lemma only_alive_call (fuel : nat) (lb : LoadBalancer) (w : World) :
  servers lb = pool net ss ->
  0 <= roundRobinCount lb <= Z.of_nat p ->
  (p <= fuel)%nat ->
  exists lb' w',
    getNextAvailableServer fuel lb w = Returned (as_Server net y) lb' w' /\
    roundRobinCount lb' = Z.of_nat p - 1 /\
    servers lb' = pool net ss.
Proof.
  intros Hs Hc Hf.
  assert (HpN : (p < List.length ss)%nat)
    by (apply nth_error_Some; congruence).
  assert (Hne : ss <> []) by (destruct ss; [cbn in HpN; lia | congruence]).
  destruct (current_nonneg net ss lb Hs Hne) as (x & Hx & C); [lia|].
  rewrite Z.mod_small in Hx by lia.
  destruct (scan_to_only_alive
              (Z.to_nat (Z.of_nat p - roundRobinCount lb)) fuel x lb w)
    as (lb' & w' & S & Hc' & Hsv); auto; try lia.
  unfold getNextAvailableServer. rewrite C, S.
  eexists _, _. split; [reflexivity|].
  cbn [roundRobinCount set_roundRobinCount servers]. split.
  - rewrite Hc'. unfold decr. apply wrap_in_int.
    unfold in_int, int_min, int_max in *. lia.
  - congruence.
Qed.

(** So when the only alive backend is not the first of the list, every
    call of an arbitrarily long sequence on a fresh balancer returns
    it. *)
Lemma only_alive_not_first_always_returned (fuel n : nat) (port : string)
  (w : World) :
  (1 <= p)%nat ->
  (p <= fuel)%nat ->
  exists lb' w',
    calls fuel n (NewLoadBalancer port (pool net ss)) w =
    Some (repeat (as_Server net y) n, lb', w').
Proof.
  intros Hp Hf.
  assert (G : forall n lb w,
             servers lb = pool net ss ->
             0 <= roundRobinCount lb <= Z.of_nat p ->
             exists lb' w',
               calls fuel n lb w = Some (repeat (as_Server net y) n, lb', w')).
  { clear n w. induction n as [|n IH]; intros lb w Hs Hc; cbn [calls repeat].
    - eauto.
    - destruct (only_alive_call fuel lb w Hs Hc Hf)
        as (lb1 & w1 & -> & Hc1 & Hs1).
      destruct (IH lb1 w1 Hs1) as (lb' & w' & ->); [lia|]. eauto. }
  apply G; [reflexivity | cbn; lia].
Qed.

End OnlyOneAlive.

(** On [down, up, up] three calls in a row all return the second
    backend: the third one is never reached. *)
Example down_up_up_three_calls :
  exists lb' w',
    calls 1 3
      (NewLoadBalancer "8000"
         (pool (fun _ a => if String.eqb a "down" then err500 else ok200)
            [newSimpleServer "down"; newSimpleServer "up";
             newSimpleServer "also-up"])) [] =
    Some (repeat
            (as_Server (fun _ a => if String.eqb a "down" then err500
                                   else ok200)
               (newSimpleServer "up")) 3, lb', w').
Proof.
  eexists _, _. reflexivity.
Qed.

(** On [down, up] the hypotheses of the section above hold with the
    alive backend at position 1. *)
Example down_up_every_call (n : nat) :
  exists lb' w',
    calls 1 n
      (NewLoadBalancer "8000"
         (pool (net_only "up")
            [newSimpleServer "down"; newSimpleServer "up"])) [] =
    Some (repeat (as_Server (net_only "up") (newSimpleServer "up")) n,
          lb', w').
Proof.
  apply (only_alive_not_first_always_returned (net_only "up")
           [newSimpleServer "down"; newSimpleServer "up"] 1%nat
           (newSimpleServer "up")); try reflexivity; try lia.
  - intros t [|[|[|i]]] x H Hi; cbn in H; try discriminate; try lia.
    injection H as <-. reflexivity.
  - cbn. unfold int_max. lia.
Qed.

(** ** Which backend a call selects *)

Section Selection.

Variable net : nat -> string -> HeadReply.
Variable ss : list simpleServer.

Lemma set_roundRobinCount_same (lb : LoadBalancer) :
  set_roundRobinCount lb (roundRobinCount lb) = lb.
Proof. destruct lb; reflexivity. Qed.

Lemma addr_at_server_at (c : Z) (x : simpleServer) :
  server_at ss c = Some x -> addr_at ss c = address x.
Proof. unfold server_at, addr_at. intros ->. reflexivity. Qed.

(** The loop, when the [k] backends from the cursor on fail their probes
    and the next one passes. *)
Lemma scan_first_alive :
  ss <> [] ->
  forall (k fuel : nat) (x y : simpleServer) (lb : LoadBalancer) (w : World),
    servers lb = pool net ss ->
    0 <= roundRobinCount lb ->
    roundRobinCount lb + Z.of_nat k <= int_max ->
    (k <= fuel)%nat ->
    server_at ss (roundRobinCount lb) = Some x ->
    (forall i, (i < k)%nat ->
       alive_reply (net (List.length w + i)
                      (addr_at ss (roundRobinCount lb + Z.of_nat i))) = false) ->
    server_at ss (roundRobinCount lb + Z.of_nat k) = Some y ->
    alive_reply (net (List.length w + k) (address y)) = true ->
    scan fuel (as_Server net x) lb w =
    Returned (as_Server net y)
      (set_roundRobinCount lb (roundRobinCount lb + Z.of_nat k))
      (probes net (circular ss (roundRobinCount lb) (S k)) w).
Proof.
  intros Hne.
  induction k as [|k IH]; intros fuel x y lb w Hs H0 H1 Hf Hx Hdead Hy Ha;
    rewrite scan_simple; cbv zeta.
  - rewrite Z.add_0_r in *. rewrite Nat.add_0_r in Ha.
    rewrite Hx in Hy. injection Hy as <-. rewrite Ha.
    rewrite set_roundRobinCount_same. cbn [circular probes].
    rewrite (addr_at_server_at _ _ Hx). reflexivity.
  - pose proof (Hdead 0%nat ltac:(lia)) as D.
    rewrite Nat.add_0_r, Z.add_0_r, (addr_at_server_at _ _ Hx) in D.
    rewrite D.
    destruct fuel as [|fuel]; [lia|].
    assert (E : incr (roundRobinCount lb) = roundRobinCount lb + 1).
    { unfold incr. apply wrap_in_int.
      unfold in_int, int_min, int_max in *. lia. }
    rewrite E.
    destruct (current_nonneg net ss
                (set_roundRobinCount lb (roundRobinCount lb + 1)))
      as (x' & Hx' & C); auto.
    { cbn. lia. }
    cbn [roundRobinCount set_roundRobinCount] in Hx'.
    rewrite C.
    rewrite (IH fuel x' y); auto.
    + cbn [roundRobinCount set_roundRobinCount circular probes].
      rewrite (addr_at_server_at _ _ Hx). f_equal.
      unfold set_roundRobinCount. cbn. f_equal. lia.
    + cbn. lia.
    + cbn [roundRobinCount set_roundRobinCount]. lia.
    + lia.
    + intros i Hi. cbn [roundRobinCount set_roundRobinCount].
      rewrite length_app. cbn [List.length].
      replace (List.length w + 1 + i)%nat with (List.length w + S i)%nat
        by lia.
      replace (roundRobinCount lb + 1 + Z.of_nat i)
        with (roundRobinCount lb + Z.of_nat (S i)) by lia.
      apply Hdead. lia.
    + cbn [roundRobinCount set_roundRobinCount].
      replace (roundRobinCount lb + 1 + Z.of_nat k)
        with (roundRobinCount lb + Z.of_nat (S k)) by lia.
      exact Hy.
    + rewrite length_app. cbn [List.length].
      replace (List.length w + 1 + k)%nat with (List.length w + S k)%nat
        by lia.
      exact Ha.
Qed.

(** X1. From a cursor [c >= 0], when the probes of the backends at
    positions [c], ..., [c + k - 1] (modulo the length) fail and the probe
    of the backend at position [c + k] passes, a call with fuel for [k]
    turns returns that backend, has probed exactly these [k + 1] backends
    in that order, and leaves the cursor at [c + k - 1]. *)
Theorem selects_first_alive_from_cursor (k fuel : nat) (y : simpleServer)
  (lb : LoadBalancer) (w : World) :
  servers lb = pool net ss ->
  0 <= roundRobinCount lb ->
  roundRobinCount lb + Z.of_nat k <= int_max ->
  (k <= fuel)%nat ->
  (forall i, (i < k)%nat ->
     alive_reply (net (List.length w + i)
                    (addr_at ss (roundRobinCount lb + Z.of_nat i))) = false) ->
  server_at ss (roundRobinCount lb + Z.of_nat k) = Some y ->
  alive_reply (net (List.length w + k) (address y)) = true ->
  getNextAvailableServer fuel lb w =
  Returned (as_Server net y)
    (set_roundRobinCount lb (roundRobinCount lb + Z.of_nat k - 1))
    (probes net (circular ss (roundRobinCount lb) (S k)) w).
Proof.
  intros Hs H0 H1 Hf Hdead Hy Ha.
  assert (Hne : ss <> []).
  { intros ->. unfold server_at in Hy. cbn in Hy.
    destruct (Z.to_nat _); discriminate. }
  destruct (current_nonneg net ss lb Hs Hne H0) as (x & Hx & C).
  unfold getNextAvailableServer. rewrite C.
  rewrite (scan_first_alive Hne k fuel x y lb w); auto.
  cbn [roundRobinCount set_roundRobinCount]. f_equal.
  unfold set_roundRobinCount. cbn. f_equal.
  unfold decr. apply wrap_in_int.
  unfold in_int, int_min, int_max in *. lia.
Qed.

End Selection.

Lemma selects_first_alive_from_cursor_witness :
  getNextAvailableServer 2
    (NewLoadBalancer "8000"
       (pool (net_only "c")
          [newSimpleServer "a"; newSimpleServer "b"; newSimpleServer "c"]))
    [] =
  Returned (as_Server (net_only "c") (newSimpleServer "c"))
    (set_roundRobinCount
       (NewLoadBalancer "8000"
          (pool (net_only "c")
             [newSimpleServer "a"; newSimpleServer "b"; newSimpleServer "c"]))
       (0 + Z.of_nat 2 - 1))
    (probes (net_only "c")
       (circular
          [newSimpleServer "a"; newSimpleServer "b"; newSimpleServer "c"]
          0 3) []).
Proof.
  apply (selects_first_alive_from_cursor (net_only "c")
           [newSimpleServer "a"; newSimpleServer "b"; newSimpleServer "c"]
           2 2 (newSimpleServer "c")).
  - reflexivity.
  - cbn. lia.
  - cbn. unfold int_max. lia.
  - lia.
  - intros [|[|i]] Hi; [reflexivity | reflexivity | lia].
  - reflexivity.
  - reflexivity.
Defined.

Lemma getNextAvailableServer_returns_alive_witness :
  let ss := [newSimpleServer "a"; newSimpleServer "b"; newSimpleServer "c"] in
  let lb := set_roundRobinCount
              (NewLoadBalancer "8000" (pool (net_only "a") ss)) 1 in
  exists (x : simpleServer) (lb' : LoadBalancer) (deads : list Event)
         (t : nat),
    getNextAvailableServer 3 lb [] =
      Returned (as_Server (net_only "a") x) lb'
        ([] ++ deads ++ [HEAD (address x) (net_only "a" t (address x))]) /\
    In x ss /\
    alive_reply (net_only "a" t (address x)) = true /\
    forallb dead_probe deads = true.
Proof.
  cbv zeta.
  apply (getNextAvailableServer_returns_alive (net_only "a")
           [newSimpleServer "a"; newSimpleServer "b"; newSimpleServer "c"]
           (newSimpleServer "a") 3).
  - reflexivity.
  - left. reflexivity.
  - intros t. reflexivity.
  - cbn. lia.
  - cbn. unfold int_max. lia.
  - cbn. lia.
Defined.

(** ** No rotation while the liveness does not change *)

Section FirstAlive.

Variable net : nat -> string -> HeadReply.
Variable ss : list simpleServer.
Variable p : nat.
Variable y : simpleServer.

Hypothesis at_p : nth_error ss p = Some y.
Hypothesis alive_p : forall t, alive_reply (net t (address y)) = true.
Hypothesis dead_before :
  forall t i x, nth_error ss i = Some x -> (i < p)%nat ->
                alive_reply (net t (address x)) = false.
Hypothesis len_int : Z.of_nat (List.length ss) <= int_max.

Lemma first_alive_call (fuel : nat) (lb : LoadBalancer) (w : World) :
  servers lb = pool net ss ->
  0 <= roundRobinCount lb <= Z.of_nat p ->
  (p <= fuel)%nat ->
  exists w',
    getNextAvailableServer fuel lb w =
    Returned (as_Server net y) (set_roundRobinCount lb (Z.of_nat p - 1)) w'.
Proof.
  intros Hs Hc Hf.
  assert (HpN : (p < List.length ss)%nat)
    by (apply nth_error_Some; congruence).
  assert (Hne : ss <> []) by (destruct ss; [cbn in HpN; lia | congruence]).
  assert (At : forall i : Z, 0 <= i < Z.of_nat (List.length ss) ->
                 server_at ss i = nth_error ss (Z.to_nat i)).
  { intros i Hi. unfold server_at. rewrite Z.mod_small by lia. reflexivity. }
  destruct (current_nonneg net ss lb Hs Hne) as (x & Hx & C); [lia|].
  set (k := Z.to_nat (Z.of_nat p - roundRobinCount lb)).
  unfold getNextAvailableServer. rewrite C.
  rewrite (scan_first_alive net ss Hne k fuel x y lb w); auto;
    try (unfold k; lia).
  - eexists. cbn [roundRobinCount set_roundRobinCount]. f_equal.
    unfold set_roundRobinCount. cbn. f_equal.
    unfold decr. unfold k. rewrite Z2Nat.id by lia.
    rewrite wrap_in_int; [lia|].
    unfold in_int, int_min, int_max in *. lia.
  - intros i Hi.
    destruct (nth_error ss (Z.to_nat (roundRobinCount lb + Z.of_nat i)))
      as [z|] eqn:Ez.
    2:{ apply nth_error_None in Ez. unfold k in Hi. lia. }
    assert (Sz : server_at ss (roundRobinCount lb + Z.of_nat i) = Some z).
    { rewrite At; [exact Ez | unfold k in Hi; lia]. }
    rewrite (addr_at_server_at ss _ _ Sz).
    apply (dead_before _ _ _ Ez). unfold k in Hi. lia.
  - rewrite At by (unfold k; lia).
    replace (Z.to_nat (roundRobinCount lb + Z.of_nat k)) with p
      by (unfold k; lia).
    exact at_p.
Qed.

(** X3. On a fresh balancer whose first backend is dead, while the
    liveness of the backends does not change, every call of an
    arbitrarily long sequence returns the same backend: the first alive
    one of the list.  The backends after it are never selected, alive or
    not. *)
Theorem first_alive_never_rotates (fuel n : nat) (port : string) (w : World) :
  (1 <= p)%nat ->
  (p <= fuel)%nat ->
  exists lb' w',
    calls fuel n (NewLoadBalancer port (pool net ss)) w =
    Some (repeat (as_Server net y) n, lb', w').
Proof.
  intros Hp Hf.
  assert (G : forall n lb w,
             servers lb = pool net ss ->
             0 <= roundRobinCount lb <= Z.of_nat p ->
             exists lb' w',
               calls fuel n lb w = Some (repeat (as_Server net y) n, lb', w')).
  { clear n w. induction n as [|n IH]; intros lb w Hs Hc; cbn [calls repeat].
    - eauto.
    - destruct (first_alive_call fuel lb w Hs Hc Hf) as (w1 & ->).
      destruct (IH (set_roundRobinCount lb (Z.of_nat p - 1)) w1 Hs)
        as (lb' & w' & ->); [cbn; lia|]. eauto. }
  apply G; [reflexivity | cbn; lia].
Qed.

End FirstAlive.

Lemma first_alive_never_rotates_witness :
  let net := fun (_ : nat) a => if String.eqb a "down" then err500 else ok200 in
  exists lb' w',
    calls 1 5
      (NewLoadBalancer "8000"
         (pool net [newSimpleServer "down"; newSimpleServer "up";
                    newSimpleServer "also-up"])) [] =
    Some (repeat (as_Server net (newSimpleServer "up")) 5, lb', w').
Proof.
  cbv zeta.
  apply (first_alive_never_rotates
           (fun _ a => if String.eqb a "down" then err500 else ok200)
           [newSimpleServer "down"; newSimpleServer "up";
            newSimpleServer "also-up"] 1%nat (newSimpleServer "up")).
  - reflexivity.
  - intros t. reflexivity.
  - intros t [|i] x H Hi; [|lia]. injection H as <-. reflexivity.
  - cbn. unfold int_max. lia.
  - lia.
  - lia.
Defined.

(** ** A single backend *)

Section Single.

Variable net : nat -> string -> HeadReply.
Variable x : simpleServer.

Lemma current_single (lb : LoadBalancer) :
  servers lb = pool net [x] -> current lb = inr (as_Server net x).
Proof.
  intros Hs. unfold current. rewrite Hs.
  cbn [pool map List.length Z.of_nat Pos.of_succ_nat Z.eqb].
  rewrite Z.rem_1_r. reflexivity.
Qed.

Lemma scan_single_down :
  (forall t, alive_reply (net t (address x)) = false) ->
  forall (n : nat) (lb : LoadBalancer) (w : World),
    servers lb = pool net [x] ->
    scan n (as_Server net x) lb w =
    Spinning (set_roundRobinCount lb (Nat.iter n incr (roundRobinCount lb)))
      (probes net (repeat (address x) (S n)) w).
Proof.
  intros Hdead. induction n as [|n IH]; intros lb w Hs;
    rewrite scan_simple; cbv zeta; rewrite Hdead.
  - cbn [Nat.iter repeat probes]. rewrite set_roundRobinCount_same.
    reflexivity.
  - rewrite current_single by exact Hs.
    rewrite IH by exact Hs.
    cbn [roundRobinCount set_roundRobinCount].
    rewrite <- Nat.iter_succ_r. reflexivity.
Qed.

(** X4. With a single backend whose probes all fail, a call is still
    running after any number [n] of turns of its loop, with no bound at
    all: it has then probed that backend [n + 1] times and incremented the
    cursor [n] times (wrapping around when it passes the largest
    [int]); the index stays 0 whatever the cursor. *)
Theorem single_backend_down_spins (n : nat) (lb : LoadBalancer) (w : World) :
  servers lb = pool net [x] ->
  (forall t, alive_reply (net t (address x)) = false) ->
  getNextAvailableServer n lb w =
  Spinning (set_roundRobinCount lb (Nat.iter n incr (roundRobinCount lb)))
    (probes net (repeat (address x) (S n)) w).
Proof.
  intros Hs Hdead. unfold getNextAvailableServer.
  rewrite current_single by exact Hs.
  rewrite scan_single_down by assumption. reflexivity.
Qed.

(** X5. With a single backend whose probes all pass, every call of an
    arbitrarily long sequence returns it, from any cursor, negative ones
    included; each call sends one probe and takes one off the cursor. *)
Theorem single_backend_every_call (fuel n : nat) (lb : LoadBalancer)
  (w : World) :
  servers lb = pool net [x] ->
  (forall t, alive_reply (net t (address x)) = true) ->
  calls fuel n lb w =
  Some (repeat (as_Server net x) n,
        set_roundRobinCount lb (Nat.iter n decr (roundRobinCount lb)),
        probes net (repeat (address x) n) w).
Proof.
  intros Hs Halive. revert lb w Hs.
  induction n as [|n IH]; intros lb w Hs; cbn [calls repeat probes Nat.iter].
  - rewrite set_roundRobinCount_same. reflexivity.
  - unfold getNextAvailableServer. rewrite current_single by exact Hs.
    rewrite scan_simple. cbv zeta. rewrite Halive.
    rewrite IH by exact Hs.
    cbn [roundRobinCount set_roundRobinCount].
    rewrite <- Nat.iter_succ_r. reflexivity.
Qed.

End Single.

Lemma single_backend_down_spins_witness :
  getNextAvailableServer 4
    (set_roundRobinCount
       (NewLoadBalancer "8000" (pool net_down [newSimpleServer "a"]))
       int_max) [] =
  Spinning
    (set_roundRobinCount
       (set_roundRobinCount
          (NewLoadBalancer "8000" (pool net_down [newSimpleServer "a"]))
          int_max)
       (Nat.iter 4 incr int_max))
    (probes net_down (repeat "a"%string 5) []).
Proof.
  exact (single_backend_down_spins net_down (newSimpleServer "a") 4
           (set_roundRobinCount
              (NewLoadBalancer "8000" (pool net_down [newSimpleServer "a"]))
              int_max)
           [] eq_refl (fun _ => eq_refl)).
Defined.

Lemma single_backend_every_call_witness :
  calls 0 3 (NewLoadBalancer "8000" (pool net_up [newSimpleServer "a"])) [] =
  Some (repeat (as_Server net_up (newSimpleServer "a")) 3,
        set_roundRobinCount
          (NewLoadBalancer "8000" (pool net_up [newSimpleServer "a"]))
          (Nat.iter 3 decr 0),
        probes net_up (repeat "a"%string 3) []).
Proof.
  exact (single_backend_every_call net_up (newSimpleServer "a") 0 3
           (NewLoadBalancer "8000" (pool net_up [newSimpleServer "a"]))
           [] eq_refl (fun _ => eq_refl)).
Defined.

(** ** What a selection touches *)

Section Frame.

Variable net : nat -> string -> HeadReply.
Variable ss : list simpleServer.

Lemma scan_frame (fuel : nat) :
  forall (x : simpleServer) (lb : LoadBalancer) (w : World),
    servers lb = pool net ss ->
    In x ss ->
    exists evs,
      world_of (scan fuel (as_Server net x) lb w) = w ++ evs /\
      Forall (probe_of ss) evs /\
      servers (balancer_of (scan fuel (as_Server net x) lb w)) = servers lb /\
      port (balancer_of (scan fuel (as_Server net x) lb w)) = port lb.
Proof.
  induction fuel as [|fuel IH]; intros x lb w Hs Hx;
    rewrite scan_simple; cbv zeta;
    assert (P : Forall (probe_of ss)
                  [HEAD (address x) (net (List.length w) (address x))])
      by (repeat constructor; exists x; eauto);
    destruct (alive_reply _); try (eexists; cbn; eauto; fail).
  destruct (current _) as [q|server'] eqn:C.
  - eexists. cbn. eauto.
  - destruct (current_pool net ss _ _
                (Hs : servers (set_roundRobinCount lb
                                 (incr (roundRobinCount lb))) = _) C)
      as (z & Hz & ->).
    destruct (IH z (set_roundRobinCount lb (incr (roundRobinCount lb)))
                (w ++ [HEAD (address x) (net (List.length w) (address x))])
                Hs Hz) as (evs & Hw & Hp & Hsv & Hpt).
    exists (HEAD (address x) (net (List.length w) (address x)) :: evs).
    rewrite Hw, Hsv, Hpt. rewrite <- app_assoc.
    repeat split; auto.
    constructor; [exists x; eauto | exact Hp].
Qed.

Lemma probes_no_forward (evs : list Event) :
  Forall (probe_of ss) evs -> filter is_forward evs = [].
Proof.
  induction 1 as [|e evs (y & reply & _ & ->) _ IH]; [reflexivity|].
  cbn. exact IH.
Qed.

Lemma getNextAvailableServer_frame (fuel : nat) (lb : LoadBalancer)
  (w : World) :
  servers lb = pool net ss ->
  exists evs,
    world_of (getNextAvailableServer fuel lb w) = w ++ evs /\
    Forall (probe_of ss) evs /\
    servers (balancer_of (getNextAvailableServer fuel lb w)) = servers lb /\
    port (balancer_of (getNextAvailableServer fuel lb w)) = port lb.
Proof.
  intros Hs. unfold getNextAvailableServer.
  destruct (current lb) as [q|server] eqn:C.
  - exists []. cbn. rewrite app_nil_r. auto.
  - destruct (current_pool net ss lb server Hs C) as (x & Hx & ->).
    destruct (scan_frame fuel x lb w Hs Hx) as (evs & Hw & Hp & Hsv & Hpt).
    exists evs.
    destruct (scan fuel (as_Server net x) lb w); cbn in *; auto.
Qed.

(** X6. However a call ends -- it returns, panics or is still
    running -- the only calls it has made to the network are calls of
    [http.Head], through [IsAlive], for addresses of the configured
    backends, logged after the traffic that was there; it has called no
    [Serve], so nothing was forwarded, and it has left the list of
    backends and the port of the balancer as they were: only the cursor
    changes. *)
Theorem getNextAvailableServer_sends_only_probes (fuel : nat)
  (lb : LoadBalancer) (w : World) :
  servers lb = pool net ss ->
  exists evs,
    world_of (getNextAvailableServer fuel lb w) = w ++ evs /\
    Forall (probe_of ss) evs /\
    count_forwards (world_of (getNextAvailableServer fuel lb w)) =
      count_forwards w /\
    servers (balancer_of (getNextAvailableServer fuel lb w)) = servers lb /\
    port (balancer_of (getNextAvailableServer fuel lb w)) = port lb.
Proof.
  intros Hs.
  destruct (getNextAvailableServer_frame fuel lb w Hs)
    as (evs & Hw & Hp & Hsv & Hpt).
  exists evs. repeat split; auto.
  rewrite Hw. unfold count_forwards.
  rewrite filter_app, (probes_no_forward evs Hp), app_nil_r. reflexivity.
Qed.

End Frame.

Lemma getNextAvailableServer_sends_only_probes_witness :
  let ss := [newSimpleServer "a"; newSimpleServer "b"] in
  let lb := NewLoadBalancer "8000" (pool net_down ss) in
  exists evs,
    world_of (getNextAvailableServer 3 lb []) = [] ++ evs /\
    Forall (probe_of ss) evs /\
    count_forwards (world_of (getNextAvailableServer 3 lb [])) =
      count_forwards [] /\
    servers (balancer_of (getNextAvailableServer 3 lb [])) = servers lb /\
    port (balancer_of (getNextAvailableServer 3 lb [])) = port lb.
Proof.
  exact (getNextAvailableServer_sends_only_probes net_down
           [newSimpleServer "a"; newSimpleServer "b"] 3
           (NewLoadBalancer "8000"
              (pool net_down [newSimpleServer "a"; newSimpleServer "b"]))
           [] eq_refl).
Defined.

(** ** The request handler *)

Lemma dead_probes_no_forward (deads : list Event) :
  forallb dead_probe deads = true -> filter is_forward deads = [].
Proof.
  induction deads as [|e deads IH]; [reflexivity|].
  cbn [forallb]. intros H. apply andb_prop in H. destruct H as [He Hd].
  destruct e; cbn in *; [auto | discriminate].
Qed.

Section Proxy.

Variable net : nat -> string -> HeadReply.
Variable ss : list simpleServer.

(** X7. Whenever [serveProxy] returns, it has forwarded the request
    exactly once, to the backend that the selection returned -- one of
    the configured backends, whose probe passed during this request.
    Between that probe and the forward it has probed the same backend a
    second time, and the forward follows whatever that second probe
    answered.  The balancer is left as the selection left it. *)
Theorem serveProxy_forwards_to_selected (fuel : nat) (lb : LoadBalancer)
  (w : World) (lb' : LoadBalancer) (w' : World) :
  servers lb = pool net ss ->
  serveProxy fuel lb w = Returned tt lb' w' ->
  exists (deads : list Event) (y : simpleServer) (t : nat) (w1 : World),
    w1 = w ++ deads ++ [HEAD (address y) (net t (address y))] /\
    getNextAvailableServer fuel lb w = Returned (as_Server net y) lb' w1 /\
    w' = w1 ++ [HEAD (address y) (net (List.length w1) (address y));
                FORWARD (target (proxy y))] /\
    In y ss /\
    forallb dead_probe deads = true /\
    alive_reply (net t (address y)) = true /\
    count_forwards w' = (count_forwards w + 1)%nat.
Proof.
  intros Hs H. unfold serveProxy in H.
  destruct (getNextAvailableServer fuel lb w) as [r lb1 w1| |] eqn:G;
    try discriminate.
  destruct (getNextAvailableServer_returned net ss fuel lb w r lb1 w1 Hs G)
    as (deads & y & t & Hw1 & Hd & Ha & -> & Hy & _).
  cbn [IsAlive as_Server Serve simpleServer_IsAlive simpleServer_Serve
         http_Head] in H.
  injection H as <- <-.
  exists deads, y, t, w1. repeat split; auto.
  - unfold simpleServer_Serve. rewrite <- app_assoc. reflexivity.
  - unfold simpleServer_Serve. rewrite Hw1. unfold count_forwards.
    rewrite !filter_app, !length_app.
    rewrite (dead_probes_no_forward deads Hd). cbn. lia.
Qed.

(** X8. When [serveProxy] does not return -- the selection panicked, or
    is still probing -- nothing has been forwarded, and the balancer and
    the traffic are exactly those the selection left. *)
Theorem serveProxy_no_forward_without_selection (fuel : nat)
  (lb : LoadBalancer) (w : World) :
  servers lb = pool net ss ->
  has_returned (serveProxy fuel lb w) = false ->
  has_returned (getNextAvailableServer fuel lb w) = false /\
  world_of (serveProxy fuel lb w) =
    world_of (getNextAvailableServer fuel lb w) /\
  balancer_of (serveProxy fuel lb w) =
    balancer_of (getNextAvailableServer fuel lb w) /\
  count_forwards (world_of (serveProxy fuel lb w)) = count_forwards w.
Proof.
  intros Hs H.
  destruct (getNextAvailableServer_frame net ss fuel lb w Hs)
    as (evs & Hw & Hp & _).
  unfold serveProxy in *.
  destruct (getNextAvailableServer fuel lb w) as [r lb1 w1| |] eqn:G.
  - destruct (IsAlive r w1). discriminate.
  - cbn in *. repeat split. rewrite Hw. unfold count_forwards.
    rewrite filter_app, (probes_no_forward ss evs Hp), app_nil_r.
    reflexivity.
  - cbn in *. repeat split. rewrite Hw. unfold count_forwards.
    rewrite filter_app, (probes_no_forward ss evs Hp), app_nil_r.
    reflexivity.
Qed.

End Proxy.

Lemma serveProxy_forwards_to_selected_witness :
  let net := fun (t : nat) (_ : string) =>
               if Nat.eqb t 0 then ok200 else refused in
  let lb := NewLoadBalancer "8000" (pool net [newSimpleServer "a"]) in
  exists (deads : list Event) (y : simpleServer) (t : nat) (w1 : World),
    w1 = [] ++ deads ++ [HEAD (address y) (net t (address y))] /\
    getNextAvailableServer 0 lb [] =
      Returned (as_Server net y) (set_roundRobinCount lb (-1)) w1 /\
    [HEAD "a" ok200; HEAD "a" refused; FORWARD "a"] =
      w1 ++ [HEAD (address y) (net (List.length w1) (address y));
             FORWARD (target (proxy y))] /\
    In y [newSimpleServer "a"] /\
    forallb dead_probe deads = true /\
    alive_reply (net t (address y)) = true /\
    count_forwards [HEAD "a" ok200; HEAD "a" refused; FORWARD "a"] =
      (count_forwards [] + 1)%nat.
Proof.
  exact (serveProxy_forwards_to_selected
           (fun t _ => if Nat.eqb t 0 then ok200 else refused)
           [newSimpleServer "a"] 0
           (NewLoadBalancer "8000"
              (pool (fun t _ => if Nat.eqb t 0 then ok200 else refused)
                 [newSimpleServer "a"]))
           []
           (set_roundRobinCount
              (NewLoadBalancer "8000"
                 (pool (fun t _ => if Nat.eqb t 0 then ok200 else refused)
                    [newSimpleServer "a"])) (-1))
           [HEAD "a" ok200; HEAD "a" refused; FORWARD "a"]
           eq_refl eq_refl).
Defined.

Lemma serveProxy_no_forward_without_selection_witness :
  let lb := NewLoadBalancer "8000"
              (pool net_down [newSimpleServer "a"; newSimpleServer "b"]) in
  has_returned (getNextAvailableServer 2 lb []) = false /\
  world_of (serveProxy 2 lb []) = world_of (getNextAvailableServer 2 lb []) /\
  balancer_of (serveProxy 2 lb []) =
    balancer_of (getNextAvailableServer 2 lb []) /\
  count_forwards (world_of (serveProxy 2 lb [])) = count_forwards [].
Proof.
  exact (serveProxy_no_forward_without_selection net_down
           [newSimpleServer "a"; newSimpleServer "b"] 2
           (NewLoadBalancer "8000"
              (pool net_down [newSimpleServer "a"; newSimpleServer "b"]))
           [] eq_refl eq_refl).
Defined.

(** X9. Once the cursor is negative and not a multiple of the number of
    backends, every request panics on its first index expression: no
    probe is sent, nothing is forwarded, and the balancer is left as it
    was, cursor included -- so the next request meets the same state and
    panics again, whatever the backends answer. *)
Theorem serveProxy_negative_cursor_stuck (fuel : nat) (lb : LoadBalancer)
  (w : World) :
  servers lb <> [] ->
  Z.rem (roundRobinCount lb) (Z.of_nat (List.length (servers lb))) < 0 ->
  getNextAvailableServer fuel lb w = Panicked IndexOutOfRange lb w /\
  serveProxy fuel lb w = Panicked IndexOutOfRange lb w /\
  forall n : nat, calls fuel (S n) lb w = None.
Proof.
  intros Hne Hr.
  assert (G : getNextAvailableServer fuel lb w = Panicked IndexOutOfRange lb w).
  { unfold getNextAvailableServer.
    rewrite (current_negative lb Hne Hr). reflexivity. }
  split; [exact G|]. split.
  - unfold serveProxy. rewrite G. reflexivity.
  - intros n. cbn [calls]. rewrite G. reflexivity.
Qed.

Lemma serveProxy_negative_cursor_stuck_witness :
  let lb := set_roundRobinCount
              (NewLoadBalancer "8000" (pool net_up main_servers)) (-1) in
  getNextAvailableServer 5 lb [] = Panicked IndexOutOfRange lb [] /\
  serveProxy 5 lb [] = Panicked IndexOutOfRange lb [] /\
  forall n : nat, calls 5 (S n) lb [] = None.
Proof.
  cbv zeta.
  apply (serveProxy_negative_cursor_stuck 5
           (set_roundRobinCount
              (NewLoadBalancer "8000" (pool net_up main_servers)) (-1)) []).
  - discriminate.
  - reflexivity.
Defined.
(** ** Process start *)

(** X10. [newSimpleServer] stops the process exactly when the address
    does not parse: it prints the error and exits with status 1, and no
    server is made.  Otherwise it prints nothing and returns a server
    that reports and probes the address string as it was given, and
    forwards to the parsed URL. *)
Theorem newSimpleServer_exits_or_binds (url_Parse : string -> string + string)
  (net : nat -> string -> HeadReply) (addr : string) (out : Stdout) :
  (forall e, url_Parse addr = inr e ->
     Startup.newSimpleServer url_Parse addr out =
     Exit 1 (out ++ [{| format := "Error: %v\n"; args := [ArgError e] |}])) /\
  (forall u, url_Parse addr = inl u ->
     exists s,
       Startup.newSimpleServer url_Parse addr out = Continue s out /\
       Address (as_Server net s) = addr /\
       (forall w, IsAlive (as_Server net s) w =
                  (alive_reply (net (List.length w) addr),
                   w ++ [HEAD addr (net (List.length w) addr)])) /\
       (forall w, Serve (as_Server net s) w = w ++ [FORWARD u])) /\
  (url_Parse addr = inl addr ->
     Startup.newSimpleServer url_Parse addr out =
     Continue (newSimpleServer addr) out).
Proof.
  unfold Startup.newSimpleServer. repeat split.
  - intros e ->. reflexivity.
  - intros u ->. eexists. split; [reflexivity|]. repeat split.
  - intros ->. reflexivity.
Qed.

(** ** Logging *)

(** X11. A request that goes through [loggingMiddleware] to
    [serveProxy] first writes the line with its method and path, also
    when the selection then panics or never ends.  The line about
    forwarding follows exactly when a backend was selected, and its
    argument is the boolean answer of a probe, not the address of the
    backend.  The traffic and the balancer are those of [serveProxy] run
    alone. *)
Theorem logged_request_output (fuel : nat) (r : Request) (lb : LoadBalancer)
  (w : World) (out : Stdout) :
  let received :=
    {| format := "Received request: %s %s\n";
       args := [ArgString (Method r); ArgString (Path r)] |} in
  snd (loggingMiddleware (handleRedirect fuel) r lb w out) =
    serveProxy fuel lb w /\
  exists rest,
    fst (loggingMiddleware (handleRedirect fuel) r lb w out) =
      out ++ received :: rest /\
    (has_returned (getNextAvailableServer fuel lb w) = false -> rest = []) /\
    (forall server lb1 w1,
        getNextAvailableServer fuel lb w = Returned server lb1 w1 ->
        rest = [{| format := "Forwarding the request to address: %q\n";
                   args := [ArgBool (fst (IsAlive server w1))] |}]).
Proof.
  cbv zeta.
  unfold loggingMiddleware, handleRedirect, serveProxy_io, serveProxy, Printf.
  destruct (getNextAvailableServer fuel lb w) as [server lb1 w1| |].
  - destruct (IsAlive server w1) as [alive w2] eqn:A. cbn [fst snd].
    split; [reflexivity|]. eexists. rewrite <- app_assoc. cbn [app].
    split; [reflexivity|]. split; [discriminate|].
    intros server' lb' w' [= <- <- <-]. rewrite A. reflexivity.
  - cbn [fst snd]. split; [reflexivity|]. exists [].
    repeat split; discriminate.
  - cbn [fst snd]. split; [reflexivity|]. exists [].
    repeat split; discriminate.
Qed.

(** ** The cursor at the ends of [int] *)

(** C6, counterexample.  With the three backends of [main] all down:
    from the cursor -1, which one earlier successful call leaves, the
    call panics at once, before any probe; from the largest [int] the
    first turn of the loop wraps the cursor to the least [int] and the
    index expression panics.  In neither case is the scan still
    advancing after one turn. *)
Lemma all_down_panics_outside_range :
  let lb := NewLoadBalancer "8000" (pool net_down main_servers) in
  getNextAvailableServer 1 (set_roundRobinCount lb (-1)) [] =
    Panicked IndexOutOfRange (set_roundRobinCount lb (-1)) [] /\
  is_spinning (getNextAvailableServer 1 (set_roundRobinCount lb (-1)) []) =
    false /\
  getNextAvailableServer 1 (set_roundRobinCount lb int_max) [] =
    Panicked IndexOutOfRange (set_roundRobinCount lb int_min)
      [HEAD "https://www.bing.com" refused] /\
  is_spinning (getNextAvailableServer 1 (set_roundRobinCount lb int_max) []) =
    false.
Proof.
  cbv zeta. repeat split; vm_compute; reflexivity.
Qed.

(** C9, counterexample.  With a single alive backend and the cursor at
    the least [int], the call probes no dead backend ([k = 0]) and
    returns, and the decrement wraps: the cursor ends at the largest
    [int], which is not the cursor before minus 1, and it has gone up. *)
Lemma cursor_wraps_at_int_min :
  let lb := NewLoadBalancer "8000" (pool net_up [newSimpleServer "a"]) in
  getNextAvailableServer 0 (set_roundRobinCount lb int_min) [] =
    Returned (as_Server net_up (newSimpleServer "a"))
      (set_roundRobinCount lb int_max) [HEAD "a" ok200] /\
  int_max <> int_min + 0 - 1 /\
  int_min < int_max.
Proof.
  cbv zeta. split; [vm_compute; reflexivity|].
  unfold int_min, int_max. split; lia.
Qed.

Section CursorAfterCall.

Variable net : nat -> string -> HeadReply.
Variable ss : list simpleServer.

(** C9, as amended.  A call that returns after probing [k >= 0] dead
    backends and then an alive one leaves the cursor at its previous
    value plus [k] minus 1 in the wrapping arithmetic of [int]: exactly
    that number whenever it is an [int].  In particular, when the first
    candidate is alive and the cursor is above the least [int], the
    cursor goes down by one, and from the 0 of a fresh balancer it becomes
    -1.  Such calls exist for every [k]: from a cursor that is not
    negative, when the probes of the next [k] backends fail and the one
    after passes (and the cursor plus [k] is an [int]), the call returns
    after exactly [k] dead probes with the cursor at its previous value
    plus [k] minus 1. *)
Theorem cursor_after_call (fuel : nat) (lb : LoadBalancer) (w : World) :
  servers lb = pool net ss ->
  (forall (r : Server) (lb' : LoadBalancer) (deads : list Event) (e : Event),
      getNextAvailableServer fuel lb w = Returned r lb' (w ++ deads ++ [e]) ->
      let k := Z.of_nat (List.length deads) in
      forallb dead_probe deads = true /\
      alive_probe e = true /\
      roundRobinCount lb' = wrap (roundRobinCount lb + k - 1) /\
      (in_int (roundRobinCount lb + k - 1) ->
       roundRobinCount lb' = roundRobinCount lb + k - 1) /\
      (k = 0 -> int_min < roundRobinCount lb <= int_max ->
       roundRobinCount lb' = roundRobinCount lb - 1) /\
      (k = 0 -> roundRobinCount lb = 0 -> roundRobinCount lb' = -1)) /\
  (forall (k : nat) (y : simpleServer),
      0 <= roundRobinCount lb ->
      roundRobinCount lb + Z.of_nat k <= int_max ->
      (k <= fuel)%nat ->
      (forall i, (i < k)%nat ->
         alive_reply (net (List.length w + i)
                        (addr_at ss (roundRobinCount lb + Z.of_nat i))) =
         false) ->
      server_at ss (roundRobinCount lb + Z.of_nat k) = Some y ->
      alive_reply (net (List.length w + k) (address y)) = true ->
      exists (deads : list Event) (e : Event),
        List.length deads = k /\
        forallb dead_probe deads = true /\
        alive_probe e = true /\
        getNextAvailableServer fuel lb w =
        Returned (as_Server net y)
          (set_roundRobinCount lb (roundRobinCount lb + Z.of_nat k - 1))
          (w ++ deads ++ [e])).
Proof.
  intros Hs. split.
  - intros r lb' deads e H.
    destruct (getNextAvailableServer_returned net ss fuel lb w r lb' _ Hs H)
      as (deads0 & y & t & Hw & Hd & Ha & _ & _ & Hc & _ & _).
    apply app_inv_head in Hw. apply app_inj_tail in Hw.
    destruct Hw as [-> ->].
    cbv zeta. cbn [alive_probe]. rewrite Hc.
    repeat split; auto.
    + intros Hin. apply wrap_in_int. exact Hin.
    + intros K Hr. rewrite K. rewrite wrap_in_int; [lia|].
      unfold in_int, int_min, int_max in *. lia.
    + intros K E. rewrite K, E. reflexivity.
  - intros k y H0 H1 Hf Hdead Hy Ha.
    assert (Hne : ss <> []).
    { intros E. rewrite E in Hy. unfold server_at in Hy. cbn in Hy.
      destruct (Z.to_nat _); discriminate. }
    destruct (current_nonneg net ss lb Hs Hne H0) as (x & Hx & C).
    assert (G : getNextAvailableServer fuel lb w =
                Returned (as_Server net y)
                  (set_roundRobinCount lb
                     (roundRobinCount lb + Z.of_nat k - 1))
                  (probes net (circular ss (roundRobinCount lb) (S k)) w)).
    { unfold getNextAvailableServer. rewrite C.
      rewrite (scan_first_alive net ss Hne k fuel x y lb w); auto.
      cbn [roundRobinCount set_roundRobinCount]. f_equal.
      unfold set_roundRobinCount. cbn. f_equal.
      unfold decr. apply wrap_in_int.
      unfold in_int, int_min, int_max in *. lia. }
    destruct (getNextAvailableServer_returned net ss fuel lb w _ _ _ Hs G)
      as (deads & z & t & Hw & Hd & Hz & _).
    exists deads, (HEAD (address z) (net t (address z))).
    rewrite G, Hw. repeat split; auto.
    destruct (probes_spec net (circular ss (roundRobinCount lb) (S k)) w)
      as (evs & Hp & _ & Hl).
    rewrite Hp in Hw. apply app_inv_head in Hw.
    assert (L : List.length (circular ss (roundRobinCount lb) (S k)) = S k).
    { clear. generalize (roundRobinCount lb).
      induction (S k) as [|m IH]; intros c; cbn; [reflexivity|].
      rewrite IH. reflexivity. }
    rewrite L, Hw, length_app in Hl. cbn [List.length] in Hl. lia.
Qed.

End CursorAfterCall.

Lemma cursor_after_call_witness :
  let ss := [newSimpleServer "down"; newSimpleServer "up"] in
  let lb := NewLoadBalancer "8000" (pool (net_only "up") ss) in
  let deads := [HEAD "down" err500] in
  let k := Z.of_nat (List.length deads) in
  (forallb dead_probe deads = true /\
   alive_probe (HEAD "up" ok200) = true /\
   0 = wrap (0 + k - 1) /\
   (in_int (0 + k - 1) -> 0 = 0 + k - 1) /\
   (k = 0 -> int_min < 0 <= int_max -> 0 = 0 - 1) /\
   (k = 0 -> 0 = 0 -> 0 = -1)) /\
  (exists (deads' : list Event) (e : Event),
      List.length deads' = 1%nat /\
      forallb dead_probe deads' = true /\
      alive_probe e = true /\
      getNextAvailableServer 1 lb [] =
      Returned (as_Server (net_only "up") (newSimpleServer "up"))
        (set_roundRobinCount lb (0 + Z.of_nat 1 - 1))
        ([] ++ deads' ++ [e])).
Proof.
  cbv zeta. split.
  - exact (proj1
             (cursor_after_call (net_only "up")
                [newSimpleServer "down"; newSimpleServer "up"] 1
                (NewLoadBalancer "8000"
                   (pool (net_only "up")
                      [newSimpleServer "down"; newSimpleServer "up"]))
                [] eq_refl)
             (as_Server (net_only "up") (newSimpleServer "up"))
             (NewLoadBalancer "8000"
                (pool (net_only "up")
                   [newSimpleServer "down"; newSimpleServer "up"]))
             [HEAD "down" err500] (HEAD "up" ok200) eq_refl).
  - apply (proj2
             (cursor_after_call (net_only "up")
                [newSimpleServer "down"; newSimpleServer "up"] 1
                (NewLoadBalancer "8000"
                   (pool (net_only "up")
                      [newSimpleServer "down"; newSimpleServer "up"]))
                [] eq_refl) 1%nat (newSimpleServer "up")).
    + cbn. lia.
    + cbn. unfold int_max. lia.
    + lia.
    + intros [|i] Hi; [reflexivity | lia].
    + reflexivity.
    + reflexivity.
Defined.
